(** * MedGemma Girder plugin: slice selection, pixel normalisation,
      job orchestration and status reconciliation

    A shallow embedding of [src/dicom_processor.py],
    [src/airflow_integration.py] and [src/girder_plugin.py], with the
    properties of the design document stated over it. *)

From Stdlib Require Import ZArith Lia Bool Ascii SpecFloat.
From stdpp Require Import ssreflect base tactics option list sorting gmap strings pretty.

#[local] Set Warnings "-rewrite-rw".
Local Open Scope Z_scope.

(** ** Python results: a value or a raised exception *)

Inductive exn : Type :=
| ZeroDivisionError
| ValueError
| IndexError
| RuntimeError (msg : string)
| OtherError (msg : string).

Inductive result (A : Type) : Type :=
| Ok (a : A)
| Raise (e : exn).
Arguments Ok {A} a.
Arguments Raise {A} e.

#[global] Instance result_ret : MRet result := λ A a, Ok a.
#[global] Instance result_bind : MBind result := λ A B k r,
  match r with
  | Ok a => k a
  | Raise e => Raise e
  end.

(** [[f(x) for x in l]] where [f] may raise: the first exception aborts. *)
Fixpoint rmap {A B} (f : A → result B) (l : list A) : result (list B) :=
  match l with
  | [] => Ok []
  | x :: l' => y ← f x ; ys ← rmap f l' ; Ok (y :: ys)
  end.

(** ** Single-precision floats and the NumPy operations on them *)

Module Float32.

Definition prec : Z := 24.
Definition emax : Z := 128.

(** [np.float32(n)] for an integer: round to nearest even. *)
Definition of_int (n : Z) : spec_float := binary_normalize prec emax n 0 false.

Definition mul : spec_float → spec_float → spec_float := SFmul prec emax.
Definition div : spec_float → spec_float → spec_float := SFdiv prec emax.
Definition eqb : spec_float → spec_float → bool := SFeqb.













(** Where a value that is not NaN stands in the order the comparisons
    implement: the sign class first, then exponent and mantissa. *)
Definition key (x : spec_float) : Z * Z * Z :=
  match x with
  | S754_infinity true => (-2, 0, 0)
  | S754_finite true m e => (-1, - e, - Z.pos m)
  | S754_zero _ | S754_nan => (0, 0, 0)
  | S754_finite false m e => (1, e, Z.pos m)
  | S754_infinity false => (2, 0, 0)
  end.


End Float32.

(** ** [dicom_processor.py]: the slice selector *)

Module DicomProcessor.

(** Python's [a // b] on integers: floor division, [ZeroDivisionError]
    on a zero divisor.  [Z.div] rounds towards minus infinity for
    either sign of the divisor, as Python does. *)
Definition floordiv (a b : Z) : result Z :=
  if decide (b = 0) then Raise ZeroDivisionError else Ok (a `div` b).

(** Number of elements of [range(start, stop, step)] for [step ≠ 0]. *)
Definition range_length (start stop step : Z) : Z :=
  let '(lo, hi, st) :=
    if decide (0 < step) then (start, stop, step) else (stop, start, - step) in
  if decide (hi ≤ lo) then 0 else (hi - lo - 1) `div` st + 1.

(** [range(start, stop, step)], [ValueError] on a zero step. *)
Definition py_range (start stop step : Z) : result (list Z) :=
  if decide (step = 0) then Raise ValueError
  else Ok (map (λ k : nat, start + Z.of_nat k * step)
               (seq 0 (Z.to_nat (range_length start stop step)))).

(** [l[i]] with Python's negative indices. *)
Definition py_index {A} (l : list A) (i : Z) : result A :=
  let n := Z.of_nat (length l) in
  let j := if decide (i < 0) then i + n else i in
  if decide (0 ≤ j < n) then
    match l !! Z.to_nat j with
    | Some x => Ok x
    | None => Raise IndexError
    end
  else Raise IndexError.

(** Body of the [for i in range(0, total, step)] loop. *)
Definition add_index (num_slices : Z) (indices : list Z) (i : Z) : list Z :=
  if bool_decide (i ∉ indices)
     && bool_decide (Z.of_nat (length indices) < num_slices)
  then indices ++ [i]
  else indices.

(** The index list built by [extract_key_slices] before sorting. *)
Definition key_indices (num_slices total : Z) : result (list Z) :=
  let indices := [total `div` 2] in
  step ← floordiv total (num_slices - 1) ;
  r ← py_range 0 total step ;
  Ok (foldl (add_index num_slices) indices r).

Definition sorted (l : list Z) : list Z := merge_sort Z.le l.

Definition extract_key_slices {A} (num_slices : Z) (dicom_files : list A)
  : result (list A) :=
  if decide (Z.of_nat (length dicom_files) ≤ num_slices) then Ok dicom_files
  else
    indices ← key_indices num_slices (Z.of_nat (length dicom_files)) ;
    rmap (py_index dicom_files) (sorted indices).

(** *** The pixel normaliser *)







End DicomProcessor.

(** ** Python values: dictionaries, truthiness, strings *)

(** The JSON-like values held in item metadata and in the bodies the
    workflow engine answers with. *)
Inductive value : Type :=
| VNone
| VBool (b : bool)
| VInt (n : Z)
| VStr (s : string).

#[global] Instance value_eq_dec : EqDecision value.
Proof. solve_decision. Defined.

(** Python's truth value of an object. *)
Definition truthy (v : value) : bool :=
  match v with
  | VNone => false
  | VBool b => b
  | VInt n => bool_decide (n ≠ 0)
  | VStr s => bool_decide (s ≠ "")
  end.

(** [a or b] *)
Definition py_or (a b : value) : value := if truthy a then a else b.

Abbreviation dict := (gmap string value).

(** [d.get(k)] and [d.get(k, default)] *)
Definition get (d : dict) (k : string) : value := default VNone (d !! k).
Definition get_or (d : dict) (k : string) (dflt : value) : value :=
  default dflt (d !! k).

(** [str(v)] for the values that are formatted into messages. *)
Definition exn_str (e : exn) : string :=
  match e with
  | ZeroDivisionError => "division by zero"
  | ValueError => "value error"
  | IndexError => "list index out of range"
  | RuntimeError msg => msg
  | OtherError msg => msg
  end.

(** [s.lower()] on ASCII text. *)
Definition lower_ascii (c : ascii) : ascii :=
  let n := nat_of_ascii c in
  if ((65 <=? n) && (n <=? 90))%nat then ascii_of_nat (n + 32) else c.

Fixpoint lower (s : string) : string :=
  match s with
  | EmptyString => EmptyString
  | String c s' => String (lower_ascii c) (lower s')
  end.

(** [s.endswith(suffix)] *)
Fixpoint endswith (s suffix : string) : bool :=
  String.eqb s suffix
  || match s with
     | EmptyString => false
     | String _ s' => endswith s' suffix
     end.

(** ** Double-precision floats, as far as the progress computation uses them *)

Module Float64.

Definition prec : Z := 53.
Definition emax : Z := 1024.

(** [float(n)] for an integer: round to nearest even. *)
Definition of_int (n : Z) : spec_float := binary_normalize prec emax n 0 false.

Definition div : spec_float → spec_float → spec_float := SFdiv prec emax.
Definition mul : spec_float → spec_float → spec_float := SFmul prec emax.

(** [int(x)]: truncation towards zero; [ValueError] on NaN and
    [OverflowError] (here [OtherError]) on an infinity. *)
Definition to_int (x : spec_float) : result Z :=
  match x with
  | S754_zero _ => Ok 0
  | S754_finite s m e =>
      let a := if decide (0 ≤ e) then Z.pos m * 2 ^ e else Z.pos m `div` 2 ^ (- e) in
      Ok (if s then - a else a)
  | S754_nan => Raise ValueError
  | S754_infinity _ => Raise (OtherError "cannot convert float infinity to integer")
  end.


End Float64.

(** ** [airflow_integration.py]: the workflow-engine client *)

Module AirflowClient.

(** Body of the POST that creates a run. *)
Record payload : Type := Payload {
  p_conf : dict;
  p_logical_date : string;
  p_dag_run_id : option string;
}.

(** One HTTP request sent through [self.session]. *)
Inductive request : Type :=
| Post (url : string) (body : payload)
| Get (url : string).

(** What [session.post/get(...)], [raise_for_status()] and [json()]
    together come to: the decoded body, a
    [requests.exceptions.RequestException] with its text, or any other
    exception. *)
Inductive outcome (B : Type) : Type :=
| Body (b : B)
| RequestException (msg : string)
| Escapes (e : exn).
Arguments Body {B} b.
Arguments RequestException {B} msg.
Arguments Escapes {B} e.

(** The decoded body of the task-instance listing: the value under
    ["task_instances"], when the key is there. *)
Record task_data : Type := TaskData {
  task_instances : option (list dict);
}.

(** The remote engine, as the client sees it. *)
Record server : Type := Server {
  on_post : string → payload → outcome dict;
  on_get : string → outcome dict;
  on_get_tasks : string → outcome task_data;
}.

Record client : Type := Client {
  api_base : string;
  remote : server;
}.

(** [try: ... except requests.exceptions.RequestException as e:
    raise RuntimeError(f"{what}: {e}") from e] *)
Definition reraise {B} (what : string) (o : outcome B) : result B :=
  match o with
  | Body b => Ok b
  | RequestException msg => Raise (RuntimeError (what +:+ ": " +:+ msg))
  | Escapes e => Raise e
  end.

Definition dag_runs_url (c : client) (dag_id : string) : string :=
  api_base c +:+ "/dags/" +:+ dag_id +:+ "/dagRuns".

(** [trigger_dag(dag_id, conf, dag_run_id)]: the request sent, and the
    run record or the exception raised.  [now] is what
    [datetime.now(timezone.utc).isoformat()] returns. *)
Definition trigger_dag (c : client) (now : string)
    (dag_id : string) (conf : dict) (dag_run_id : option string)
  : request * result dict :=
  let url := dag_runs_url c dag_id in
  let body :=
    {| p_conf := conf;
       p_logical_date := now;
       p_dag_run_id :=
         match dag_run_id with
         | Some r => if decide (r = "") then None else Some r
         | None => None
         end |} in
  (Post url body,
   reraise ("Failed to trigger DAG " +:+ dag_id) (on_post (remote c) url body)).

Definition get_dag_run_status (c : client) (dag_id dag_run_id : string)
  : request * result dict :=
  let url := dag_runs_url c dag_id +:+ "/" +:+ dag_run_id in
  (Get url,
   reraise ("Failed to get DAG run status for " +:+ dag_run_id)
           (on_get (remote c) url)).

Definition get_dag_run_tasks (c : client) (dag_id dag_run_id : string)
  : request * result task_data :=
  let url := dag_runs_url c dag_id +:+ "/" +:+ dag_run_id +:+ "/taskInstances" in
  (Get url,
   reraise ("Failed to get task instances for " +:+ dag_run_id)
           (on_get_tasks (remote c) url)).

End AirflowClient.

(** ** [girder_plugin.py]: the REST resource *)

Module GirderPlugin.
Import AirflowClient.

(** *** The Girder side: documents, the database, the request *)

Record file : Type := File {
  f_id : string;
  f_name : string;
  f_created : Z;
}.

Record item : Type := Item {
  i_id : string;
  i_folderId : string;
  i_name : string;
  i_meta : dict;
}.

(** The part of the database the resource reads and writes. *)
Record store : Type := Store {
  items : list item;
  child_files : string → list file;
}.

(** [Item().childFiles(item)] *)
Definition childFiles (st : store) (it : item) : list file :=
  child_files st (i_id it).

(** [Item().findOne(query)]: the first document the query matches. *)
Definition findOne (st : store) (query : item → bool) : option item :=
  List.find query (items st).

(** [Item().save(item)]: the document with the same [_id] is replaced,
    or the document is inserted. *)
Fixpoint save_in (l : list item) (it : item) : list item :=
  match l with
  | [] => [it]
  | x :: l' => if decide (i_id x = i_id it) then it :: l' else x :: save_in l' it
  end.

Definition save (st : store) (it : item) : store :=
  {| items := save_in (items st) it; child_files := child_files st |}.

(** What [item['meta'].update(metadata)] followed by the deletion of the
    keys set to [None] leaves under one key. *)
Definition update_key (new old : option value) : option value :=
  match new with
  | Some VNone => None
  | Some v => Some v
  | None => old
  end.

(** [Item().setMetadata(item, metadata)], with Girder's default
    [allowNull=False]: the item's metadata is updated key by key, keys
    set to [None] are removed, and the item is saved. *)
Definition setMetadata (st : store) (it : item) (metadata : dict) : store * item :=
  let it' :=
    {| i_id := i_id it; i_folderId := i_folderId it; i_name := i_name it;
       i_meta := merge update_key metadata (i_meta it) |} in
  (save st it', it').

(** The document stored under an id. *)
Definition lookup_item (st : store) (id : string) : option item :=
  List.find (λ x, bool_decide (i_id x = id)) (items st).

(** What [self.getCurrentToken()] returns. *)
Inductive token_model : Type :=
| NoToken
| TokenDict (d : dict)
| TokenStr (s : string).

(** What one request sees of its surroundings: the process environment,
    the session, the request headers, the clock and the random source. *)
Record request_ctx : Type := Ctx {
  environ : gmap string string;
  current_token : token_model;
  header_Girder_Token : value;
  header_girder_token : value;
  current_user : option dict;
  (** [str(uuid.uuid4())] *)
  uuid4 : string;
  (** the n-th [datetime.now(timezone.utc).isoformat()] of the request *)
  utcnow : nat → string;
  (** [Path(name).stem.strip()] *)
  path_stem : string → string;
}.

(** [os.getenv(key, default)] and [os.getenv(key)] *)
Definition getenv (c : request_ctx) (key dflt : string) : string :=
  default dflt (environ c !! key).
Definition getenv_opt (c : request_ctx) (key : string) : value :=
  match environ c !! key with
  | Some s => VStr s
  | None => VNone
  end.

(** The resource object: its client and the names read at start-up. *)
Record plugin : Type := Plugin {
  airflow_client : client;
  analysis_dag_id : string;
  zip_dag_id : string;
  processed_item_name : string;
}.

Record progress : Type := Progress {
  percent : Z;
  done_tasks : Z;
  total_tasks : Z;
}.

(** The dictionaries the endpoints answer with, one constructor a shape. *)
Inductive response : Type :=
| Error (error : string)
| InProgress (job_id dag_id : value)
| AlreadyProcessed (processed_item_id processed_item_name : string)
| ZipStarted (dag_id : string) (job_id : value)
    (item_id folder_id file_id file_name output_item_name : string)
| AnalysisStarted (dag_id : string) (job_id : value) (item_id : string)
| ZipStatus (job_id dag_id : string) (status start_date end_date dag_run_id : value)
    (prog : progress)
| ItemNotStarted (item_id : string) (status : value)
| ItemStatus (item_id : string) (job_id dag_id status start_date end_date : value)
| ItemStatusStale (item_id : string) (job_id dag_id status : value) (error : string).

(** An endpoint's answer together with its effects: the database it
    leaves and the requests it sent to the engine, in order. *)
Record reply : Type := Reply {
  resp : response;
  db : store;
  sent : list request;
}.

(** [str(v)] inside an f-string. *)
Definition str (v : value) : string :=
  match v with
  | VNone => "None"
  | VBool true => "True"
  | VBool false => "False"
  | VInt n => pretty n
  | VStr s => s
  end.

(** [a or b] for an optional string argument. *)
Definition str_or (a : option string) (b : string) : string :=
  match a with
  | Some s => if decide (s = "") then b else s
  | None => b
  end.

(** *** Helpers of the resource *)

(** [Path(source_file_name or '').stem.strip()], then the fallback. *)
Definition _default_output_item_name (self : plugin) (c : request_ctx)
    (source_file_name : string) : string :=
  let stem := path_stem c source_file_name in
  if decide (stem = "") then processed_item_name self else stem +:+ "_triage".

Definition _token_value (c : request_ctx) : value :=
  let from_headers := py_or (header_Girder_Token c) (header_girder_token c) in
  match current_token c with
  | TokenDict token =>
      if truthy (get token "token") then get token "token"
      else if truthy (get token "accessToken") then get token "accessToken"
      else from_headers
  | TokenStr token => VStr token
  | NoToken => from_headers
  end.

(** [l.sort(key=created, reverse=True)]: descending and stable. *)
Fixpoint insert_by_created (f : file) (l : list file) : list file :=
  match l with
  | [] => [f]
  | g :: l' =>
      if decide (f_created g ≤ f_created f) then f :: l
      else g :: insert_by_created f l'
  end.

Definition sort_by_created_desc (l : list file) : list file :=
  foldr insert_by_created [] l.

Definition _latest_zip_file (st : store) (it : item) : option file :=
  let files := childFiles st it in
  let zip_files := filter (λ f, endswith (lower (f_name f)) ".zip" = true) files in
  head (sort_by_created_desc zip_files).

(** [Item().findOne({'folderId': ..., 'name': ..., 'meta.source_item_id': ...})] *)
Definition _already_processed_item (st : store)
    (source_item_id folder_id processed_item_name : string) : option item :=
  findOne st (λ x,
    bool_decide (i_folderId x = folder_id)
    && bool_decide (i_name x = processed_item_name)
    && bool_decide (i_meta x !! "source_item_id" = Some (VStr source_item_id))).

(** The metadata written after a successful trigger.  [now] is the clock
    reading taken here. *)
Definition trigger_metadata (c : request_ctx) (now : string)
    (dag_id : string) (dag_run : dict) : dict :=
  let user := default ∅ (current_user c) in
  list_to_map [
    ("airflow_dag_id", VStr dag_id);
    ("airflow_job_id", get dag_run "dag_run_id");
    ("analysis_status", get_or dag_run "state" (VStr "queued"));
    ("job_started", get dag_run "logical_date");
    ("triggered_by", get_or user "login" (get user "_id"));
    ("triggered_at", VStr now)
  ].

Definition _set_trigger_metadata (c : request_ctx) (now : string) (st : store)
    (it : item) (dag_id : string) (dag_run : dict) : store :=
  (setMetadata st it (trigger_metadata c now dag_id dag_run)).1.

(** *** [POST medgemma/trigger-zip/:id] *)

Definition zip_dag_conf (c : request_ctx) (job_id : string) (zip_file : file)
    (girder_token : value) (source_item_id folder_id item_name : string) : dict :=
  list_to_map [
    ("job_id", VStr job_id);
    ("file_id", VStr (f_id zip_file));
    ("file_name", VStr (f_name zip_file));
    ("girder_url", VStr (getenv c "GIRDER_URL" "http://localhost:8080"));
    ("girder_token", girder_token);
    ("remote_zip_path", VStr (getenv c "ZIP_REMOTE_PATH" "/tmp/girder_zips/"));
    ("source_item_id", VStr source_item_id);
    ("folder_id", VStr folder_id);
    ("item_name", VStr item_name)
  ].

Definition trigger_zip_pipeline (self : plugin) (c : request_ctx) (st : store)
    (it : item) (folder_id item_name : option string) : reply :=
  match _latest_zip_file st it with
  | None => Reply (Error "No ZIP file found in item") st []
  | Some zip_file =>
  let girder_token := _token_value c in
  if negb (truthy girder_token) then
    Reply (Error "No Girder API token in current request context") st []
  else
  let item_meta := i_meta it in
  let current_status := get item_meta "analysis_status" in
  if bool_decide (current_status = VStr "queued" ∨ current_status = VStr "running") then
    Reply (InProgress (get item_meta "airflow_job_id")
                      (get_or item_meta "airflow_dag_id" (VStr (zip_dag_id self))))
          st []
  else
  let source_item_id := i_id it in
  let target_folder_id := str_or folder_id (i_folderId it) in
  let target_item_name :=
    str_or item_name (_default_output_item_name self c (f_name zip_file)) in
  let existing_processed :=
    _already_processed_item st source_item_id target_folder_id target_item_name in
  if bool_decide (is_Some existing_processed)
     || truthy (get item_meta "processed_dicom_ready") then
    Reply (AlreadyProcessed (from_option i_id "" existing_processed) target_item_name)
          st []
  else
  let job_id := uuid4 c in
  let dag_run_id := "manual__girder_" +:+ job_id in
  let dag_conf :=
    zip_dag_conf c job_id zip_file girder_token
                 source_item_id target_folder_id target_item_name in
  let '(rq, r) :=
    trigger_dag (airflow_client self) (utcnow c 0) (zip_dag_id self) dag_conf
                (Some dag_run_id) in
  match r with
  | Ok dag_run =>
      let st' := _set_trigger_metadata c (utcnow c 1) st it (zip_dag_id self) dag_run in
      Reply (ZipStarted (zip_dag_id self) (get dag_run "dag_run_id") (i_id it)
                        target_folder_id (f_id zip_file) (f_name zip_file)
                        target_item_name)
            st' [rq]
  | Raise e =>
      Reply (Error ("Failed to trigger ZIP pipeline: " +:+ exn_str e)) st [rq]
  end
  end.

(** *** [POST medgemma/analyze/:id] *)

(** The [for f in files] scan: the last [.zip] file and all [.dcm] files. *)
Definition scan_files (files : list file) : option file * list file :=
  foldl (λ '(zip_file, dicom_files) f,
           if endswith (f_name f) ".zip" then (Some f, dicom_files)
           else if endswith (f_name f) ".dcm" then (zip_file, dicom_files ++ [f])
           else (zip_file, dicom_files))
        (None, []) files.

Definition analysis_dag_conf (c : request_ctx) (job_id : string) (it : item)
    (hf_token : value) (zip_file : option file) : dict :=
  let base : dict :=
    list_to_map [
      ("job_id", VStr job_id);
      ("item_id", VStr (i_id it));
      ("girder_url", VStr (getenv c "GIRDER_URL" "http://localhost:8080"));
      ("girder_token", _token_value c);
      ("hf_token", hf_token);
      ("extract_dir", VStr ("/tmp/medgemma_extract_" +:+ job_id));
      ("anonymized_dir", VStr ("/tmp/medgemma_anonymized_" +:+ job_id));
      ("output_dir", VStr ("/tmp/medgemma_output_" +:+ job_id))
    ] in
  match zip_file with
  | Some z =>
      <["remote_zip_path" := VStr ("/tmp/medgemma_work/" +:+ f_name z)]>
        (<["file_id" := VStr (f_id z)]> base)
  | None => base
  end.

Definition analyze_item (self : plugin) (c : request_ctx) (st : store)
    (it : item) (hf_token : value) : reply :=
  let files := childFiles st it in
  let '(zip_file, dicom_files) := scan_files files in
  if bool_decide (zip_file = None ∧ dicom_files = []) then
    Reply (Error "No ZIP or DICOM files found in item") st []
  else
  let job_id := uuid4 c in
  let hf_token := py_or hf_token (getenv_opt c "HUGGINGFACE_TOKEN") in
  if negb (truthy hf_token) then
    Reply (Error "Hugging Face token not provided") st []
  else
  let dag_conf := analysis_dag_conf c job_id it hf_token zip_file in
  let '(rq, r) :=
    trigger_dag (airflow_client self) (utcnow c 0) (analysis_dag_id self) dag_conf
                (Some ("manual__analysis_" +:+ job_id)) in
  match r with
  | Ok dag_run =>
      let st' :=
        _set_trigger_metadata c (utcnow c 1) st it (analysis_dag_id self) dag_run in
      Reply (AnalysisStarted (analysis_dag_id self) (get dag_run "dag_run_id") (i_id it))
            st' [rq]
  | Raise e => Reply (Error ("Failed to trigger pipeline: " +:+ exn_str e)) st [rq]
  end.

(** *** [GET medgemma/zip-status/:job_id] *)

Definition done_states : list value :=
  [VStr "success"; VStr "failed"; VStr "skipped"; VStr "upstream_failed"].

(** [sum(1 for t in task_instances if t.get('state') in done_states)] *)
Definition count_done (task_instances : list dict) : Z :=
  Z.of_nat (length (filter (λ t, get t "state" ∈ done_states) task_instances)).

(** [int((done_tasks / total_tasks) * 100) if total_tasks else 0].  The
    two counts are list lengths, far below [2 ^ 53], so Python's true
    division of the integers is the double-precision division of their
    exact conversions. *)
Definition percent_of (done_tasks total_tasks : Z) : result Z :=
  if decide (total_tasks = 0) then Ok 0
  else
    Float64.to_int
      (Float64.mul (Float64.div (Float64.of_int done_tasks) (Float64.of_int total_tasks))
                   (Float64.of_int 100)).

(** The body of the inner [try]. *)
Definition task_progress (state : value) (tasks : task_data) : result progress :=
  let task_instances := default [] (task_instances tasks) in
  let total_tasks := Z.of_nat (length task_instances) in
  let done_tasks := count_done task_instances in
  percent ← percent_of done_tasks total_tasks ;
  let percent := if decide (state = VStr "success") then 100 else percent in
  Ok (Progress percent done_tasks total_tasks).

(** The inner [try ... except Exception] as a whole. *)
Definition progress_or_default (state : value) (tasks : result task_data) : progress :=
  let fallback := Progress (if decide (state = VStr "success") then 100 else 0) 0 0 in
  match tasks with
  | Ok td =>
      match task_progress state td with
      | Ok p => p
      | Raise _ => fallback
      end
  | Raise _ => fallback
  end.

(** [update_meta] of the status endpoint. *)
Definition status_update (state : value) : dict :=
  if decide (state = VStr "success") then
    <["processed_dicom_ready" := VBool true]> {["analysis_status" := state]}
  else {["analysis_status" := state]}.

Definition get_zip_job_status (self : plugin) (st : store) (job_id : string) : reply :=
  let '(rq1, r1) := get_dag_run_status (airflow_client self) (zip_dag_id self) job_id in
  match r1 with
  | Raise e => Reply (Error ("Failed to get ZIP job status: " +:+ exn_str e)) st [rq1]
  | Ok dag_run_status =>
      let state := get_or dag_run_status "state" (VStr "unknown") in
      let '(rq2, r2) :=
        get_dag_run_tasks (airflow_client self) (zip_dag_id self) job_id in
      let prog := progress_or_default state r2 in
      let source_item :=
        findOne st (λ x, bool_decide (i_meta x !! "airflow_job_id" = Some (VStr job_id))) in
      let st' :=
        match source_item with
        | Some src => (setMetadata st src (status_update state)).1
        | None => st
        end in
      Reply (ZipStatus job_id (zip_dag_id self) state
                       (get dag_run_status "start_date") (get dag_run_status "end_date")
                       (get dag_run_status "dag_run_id") prog)
            st' [rq1; rq2]
  end.

(** *** [GET medgemma/item-status/:id] *)

Definition get_item_pipeline_status (self : plugin) (st : store) (it : item) : reply :=
  let metadata := i_meta it in
  let dag_id := get metadata "airflow_dag_id" in
  let dag_run_id := get metadata "airflow_job_id" in
  if negb (truthy dag_id) || negb (truthy dag_run_id) then
    Reply (ItemNotStarted (i_id it) (get_or metadata "analysis_status" (VStr "not_started")))
          st []
  else
  let '(rq, r) := get_dag_run_status (airflow_client self) (str dag_id) (str dag_run_id) in
  match r with
  | Ok dag_run_status =>
      let state := get_or dag_run_status "state" (VStr "unknown") in
      let st' := (setMetadata st it {["analysis_status" := state]}).1 in
      Reply (ItemStatus (i_id it) dag_run_id dag_id state
                        (get dag_run_status "start_date") (get dag_run_status "end_date"))
            st' [rq]
  | Raise e =>
      Reply (ItemStatusStale (i_id it) dag_run_id dag_id
                             (get_or metadata "analysis_status" (VStr "unknown"))
                             ("Status refresh failed: " +:+ exn_str e))
            st [rq]
  end.

End GirderPlugin.

(** ** Notions the statements on the reconciler use *)

Module Reconciler.
Import AirflowClient GirderPlugin.

(** The status query [get_item_pipeline_status] makes for an item. *)
Definition item_query (self : plugin) (it : item) : result dict :=
  (get_dag_run_status (airflow_client self)
     (str (get (i_meta it) "airflow_dag_id"))
     (str (get (i_meta it) "airflow_job_id"))).2.

(** The state read off a run record. *)
Definition fetched_state (run : dict) : value := get_or run "state" (VStr "unknown").

(** The status query of [get_zip_job_status]. *)
Definition zip_query (self : plugin) (job_id : string) : result dict :=
  (get_dag_run_status (airflow_client self) (zip_dag_id self) job_id).2.

(** The item [get_zip_job_status] writes to. *)
Definition zip_source_item (st : store) (job_id : string) : option item :=
  findOne st (λ x, bool_decide (i_meta x !! "airflow_job_id" = Some (VStr job_id))).

End Reconciler.

(** ** Notions the statements on the progress computation use *)

Module Progress.
Import GirderPlugin.






End Progress.

(** ** Sample deployments, used to exercise the statements below *)

Module Sample.
Import AirflowClient GirderPlugin.

(** An engine that accepts every request and answers with [run]. *)
Definition engine_up (run : dict) (tasks : list dict) : server :=
  {| on_post := λ _ _, Body run;
     on_get := λ _, Body run;
     on_get_tasks := λ _, Body (TaskData (Some tasks)) |}.

(** An engine that cannot be reached. *)
Definition engine_down : server :=
  {| on_post := λ _ _, RequestException "Connection refused";
     on_get := λ _, RequestException "Connection refused";
     on_get_tasks := λ _, RequestException "Connection refused" |}.

Definition resource (srv : server) : plugin :=
  {| airflow_client := Client "http://localhost:8080/api/v2" srv;
     analysis_dag_id := "medgemma_analysis_pipeline";
     zip_dag_id := "girder_zip_pipeline";
     processed_item_name := "Processed Dicom" |}.

Definition ctx (uuid : string) : request_ctx :=
  {| environ := {["HUGGINGFACE_TOKEN" := "hf_secret"]};
     current_token := TokenDict {["token" := VStr "girder-token"]};
     header_Girder_Token := VNone;
     header_girder_token := VNone;
     current_user := Some {["login" := VStr "alice"]};
     uuid4 := uuid;
     utcnow := λ _, "2024-05-01T10:00:00+00:00";
     path_stem := λ _, "scan" |}.

Definition running_meta : dict :=
  list_to_map [
    ("airflow_dag_id", VStr "girder_zip_pipeline");
    ("airflow_job_id", VStr "manual__girder_j1");
    ("analysis_status", VStr "running")
  ].

Definition study (meta : dict) : item :=
  {| i_id := "item1"; i_folderId := "folder1"; i_name := "study"; i_meta := meta |}.

Definition scan_zip : file :=
  {| f_id := "file1"; f_name := "scan.ZIP"; f_created := 1 |}.

Definition slice_dcm : file :=
  {| f_id := "file2"; f_name := "slice.dcm"; f_created := 2 |}.

Definition database (meta : dict) (files : list file) : store :=
  {| items := [study meta]; child_files := λ _, files |}.


End Sample.

(** * Properties *)

(** ** Generic facts on [result] *)

Lemma rmap_ok_length {A B} (f : A → result B) l out :
  rmap f l = Ok out → length out = length l.
Proof.
  revert out; induction l as [|x l IH]; intros out; simpl.
  - by intros [= <-].
  - destruct (f x) as [y|]; simpl; [|done].
    destruct (rmap f l) as [ys|]; simpl; [|done].
    intros [= <-]; simpl. by rewrite (IH ys).
Qed.

Lemma rmap_total {A B} (f : A → result B) (g : A → B) l :
  (∀ x, x ∈ l → f x = Ok (g x)) → rmap f l = Ok (map g l).
Proof.
  induction l as [|x l IH]; intros Hf; simpl; [done|].
  rewrite Hf; [|left]. simpl. rewrite IH; [done|].
  intros y Hy. apply Hf. by right.
Qed.

Lemma rmap_some {A B} (f : A → result B) l :
  (∀ x, x ∈ l → ∃ y, f x = Ok y) →
  ∃ out, rmap f l = Ok out ∧ length out = length l.
Proof.
  induction l as [|x l IH]; intros Hf; simpl; [by exists []|].
  destruct (Hf x) as [y Hy]; [left|]. rewrite Hy; simpl.
  destruct IH as (ys & Hys & Hlen); [intros z Hz; apply Hf; by right|].
  rewrite Hys; simpl. exists (y :: ys). by rewrite /= Hlen.
Qed.

Lemma rmap_elem {A B} (f : A → result B) l out x y :
  rmap f l = Ok out → x ∈ l → f x = Ok y → y ∈ out.
Proof.
  revert out; induction l as [|z l IH]; intros out Hout Hx Hy; simpl in *.
  - by apply elem_of_nil in Hx.
  - destruct (f z) as [fz|] eqn:Hz; simpl in Hout; [|done].
    destruct (rmap f l) as [ys|]; simpl in Hout; [|done].
    injection Hout as <-.
    apply elem_of_cons in Hx as [->|Hx].
    + rewrite Hz in Hy. injection Hy as <-. left.
    + right. by apply IH.
Qed.

(** ** The slice selector *)

Section selector.
Import DicomProcessor.

Lemma range_from_zero total step :
  0 < step → 0 < total →
  ∃ r, py_range 0 total step = Ok r
       ∧ NoDup r
       ∧ (∀ i, i ∈ r → 0 ≤ i < total)
       ∧ 0 ∈ r
       ∧ Z.of_nat (length r) = (total - 1) `div` step + 1.
Proof.
  intros Hstep Htot. unfold py_range.
  destruct (decide (step = 0)) as [|_]; [lia|].
  eexists; split; [reflexivity|].
  assert (Hlen : range_length 0 total step = (total - 1) `div` step + 1).
  { unfold range_length. destruct (decide (0 < step)); [|lia].
    destruct (decide (total ≤ 0)); [lia|]. f_equal. f_equal. lia. }
  rewrite Hlen.
  assert (Hq : 0 ≤ (total - 1) `div` step) by (apply Z.div_pos; lia).
  repeat split.
  - apply NoDup_fmap_2; [|apply NoDup_seq].
    intros a b Hab. nia.
  - apply list_elem_of_fmap in H as (k & -> & Hk).
    apply elem_of_seq in Hk. lia.
  - apply list_elem_of_fmap in H as (k & -> & Hk).
    apply elem_of_seq in Hk.
    assert (Z.of_nat k ≤ (total - 1) `div` step) by lia.
    pose proof (Z.mul_div_le (total - 1) step Hstep). nia.
  - apply list_elem_of_fmap. exists 0%nat. split; [lia|].
    apply elem_of_seq. lia.
  - rewrite length_map length_seq. lia.
Qed.

Lemma filter_ext_elem {A} (P Q : A → Prop)
    `{!∀ x, Decision (P x)} `{!∀ x, Decision (Q x)} (l : list A) :
  (∀ x, x ∈ l → P x ↔ Q x) → filter P l = filter Q l.
Proof.
  induction l as [|x l IH]; intros HPQ; [done|].
  rewrite !filter_cons IH; [|intros y Hy; apply HPQ; by right].
  assert (P x ↔ Q x) as Hx by (apply HPQ; left).
  destruct (decide (P x)), (decide (Q x)); tauto || done.
Qed.

Lemma add_index_length N acc i :
  (length acc ≤ length (add_index N acc i))%nat.
Proof.
  unfold add_index. case_match; [rewrite length_app /=|]; lia.
Qed.

Lemma foldl_add_index_prefix N r : ∀ acc,
  acc `prefix_of` foldl (add_index N) acc r.
Proof.
  induction r as [|i r IH]; intros acc; simpl; [done|].
  etrans; [|apply IH]. unfold add_index.
  case_match; [by apply prefix_app_r|done].
Qed.

Lemma foldl_add_index_elem N r : ∀ acc i,
  i ∈ foldl (add_index N) acc r → i ∈ acc ∨ i ∈ r.
Proof.
  induction r as [|j r IH]; intros acc i; simpl; [by left|].
  intros [Hi|Hi]%IH; [|right; by right].
  unfold add_index in Hi. case_match; [|by left].
  apply elem_of_app in Hi as [Hi|Hi]; [by left|].
  apply list_elem_of_singleton in Hi as ->. right; left.
Qed.

(** The loop stops growing the list at [N] entries, and otherwise adds
    every visited index that is not yet there. *)
Lemma foldl_add_index_length N r : ∀ acc,
  NoDup r → Z.of_nat (length acc) ≤ N →
  Z.of_nat (length (foldl (add_index N) acc r))
  = Z.of_nat (length acc)
      `max` (N `min` (Z.of_nat (length acc)
                      + Z.of_nat (length (filter (λ i, i ∉ acc) r)))).
Proof.
  induction r as [|i r IH]; intros acc Hnd Hacc; simpl.
  - lia.
  - apply NoDup_cons in Hnd as [Hi Hnd].
    rewrite filter_cons. unfold add_index.
    destruct (decide (i ∉ acc)) as [Hni|Hin].
    + rewrite (bool_decide_eq_true_2 _ Hni) /=.
      destruct (decide (Z.of_nat (length acc) < N)) as [Hlt|Hge].
      * rewrite (bool_decide_eq_true_2 _ Hlt).
        rewrite IH; [|done|rewrite length_app /=; lia].
        rewrite length_app /=.
        assert (filter (λ j, j ∉ acc ++ [i]) r = filter (λ j, j ∉ acc) r) as ->.
        { apply filter_ext_elem. intros j Hj.
          rewrite elem_of_app list_elem_of_singleton.
          split; [tauto|]. intros ? [?| ->]; done. }
        lia.
      * rewrite (bool_decide_eq_false_2 _ Hge).
        rewrite IH; [|done|lia]. lia.
    + rewrite (bool_decide_eq_false_2 _ Hin) /=.
      rewrite IH; [|done|lia]. lia.
Qed.

Lemma filter_ne_length (r : list Z) m :
  NoDup r →
  (length r ≤ S (length (filter (λ i, i ∉ [m]) r)))%nat.
Proof.
  induction r as [|i r IH]; intros Hnd; simpl; [lia|].
  apply NoDup_cons in Hnd as [Hi Hnd]. rewrite filter_cons.
  destruct (decide (i ∉ [m])) as [Hne|Heq]; simpl.
  - specialize (IH Hnd). lia.
  - assert (i = m) as -> by (destruct (decide (i = m)); [done|];
      exfalso; apply Heq; by intros ?%list_elem_of_singleton).
    assert (filter (λ i, i ∉ [m]) r = r) as ->; [|lia].
    clear IH Hnd Heq. induction r as [|j r IH]; [done|].
    rewrite filter_cons. apply not_elem_of_cons in Hi as [Hne Hi].
    rewrite decide_True; [|by intros ?%list_elem_of_singleton].
    by rewrite IH.
Qed.

Lemma py_index_in_range {A} (l : list A) i :
  0 ≤ i < Z.of_nat (length l) →
  ∃ x, py_index l i = Ok x ∧ l !! Z.to_nat i = Some x.
Proof.
  intros Hi. unfold py_index.
  destruct (decide (i < 0)); [lia|].
  destruct (decide (0 ≤ i < Z.of_nat (length l))); [|lia].
  destruct (lookup_lt_is_Some_2 l (Z.to_nat i)) as [x Hx]; [lia|].
  rewrite Hx. by exists x.
Qed.

(** For [2 ≤ N < L] the loop runs without fault; the index list holds the
    midpoint, only valid positions, and [N - 1] or [N] entries. *)
Lemma key_indices_spec N L :
  2 ≤ N → N < L →
  ∃ idx, key_indices N L = Ok idx
         ∧ L `div` 2 ∈ idx
         ∧ (∀ i, i ∈ idx → 0 ≤ i < L)
         ∧ N - 1 ≤ Z.of_nat (length idx) ≤ N.
Proof.
  intros HN HL. unfold key_indices, floordiv.
  destruct (decide (N - 1 = 0)); [lia|]. simpl.
  assert (Hstep : 0 < L `div` (N - 1)) by (apply Z.div_str_pos; lia).
  destruct (range_from_zero L (L `div` (N - 1))) as (r & -> & Hnd & Hr & H0 & Hlen);
    [done|lia|]. simpl.
  eexists; split; [reflexivity|].
  assert (Hmid : 0 ≤ L `div` 2 < L).
  { split; [apply Z.div_pos; lia|apply Z.div_lt_upper_bound; lia]. }
  repeat split.
  - eapply elem_of_prefix; [|apply foldl_add_index_prefix]. left.
  - apply foldl_add_index_elem in H as [H|H].
    + apply list_elem_of_singleton in H. lia.
    + apply Hr in H. lia.
  - apply foldl_add_index_elem in H as [H|H].
    + apply list_elem_of_singleton in H. lia.
    + apply Hr in H. lia.
  - rewrite foldl_add_index_length; [|done|simpl; lia]. simpl length.
    pose proof (filter_ne_length r (L `div` 2) Hnd) as Hf.
    assert (N - 2 ≤ (L - 1) `div` (L `div` (N - 1))).
    { apply Z.div_le_lower_bound; [done|].
      pose proof (Z.mul_div_le L (N - 1)). nia. }
    lia.
  - rewrite foldl_add_index_length; [|done|simpl; lia]. simpl length. lia.
Qed.

Lemma sorted_elem l i : i ∈ sorted l ↔ i ∈ l.
Proof. unfold sorted. by rewrite merge_sort_Permutation. Qed.

Lemma sorted_length l : length (sorted l) = length l.
Proof. unfold sorted. by rewrite merge_sort_Permutation. Qed.

(** The whole selector for [2 ≤ N < L]. *)
Lemma extract_key_slices_large {A} N (files : list A) :
  2 ≤ N → N < Z.of_nat (length files) →
  ∃ idx sel,
    key_indices N (Z.of_nat (length files)) = Ok idx
    ∧ extract_key_slices N files = Ok sel
    ∧ Z.of_nat (length files) `div` 2 ∈ idx
    ∧ (∀ x, files !! Z.to_nat (Z.of_nat (length files) `div` 2) = Some x → x ∈ sel)
    ∧ N - 1 ≤ Z.of_nat (length sel) ≤ N.
Proof.
  intros HN HL. unfold extract_key_slices.
  destruct (decide (Z.of_nat (length files) ≤ N)); [lia|].
  destruct (key_indices_spec N _ HN HL) as (idx & -> & Hmid & Hrange & Hlen).
  simpl.
  destruct (rmap_some (py_index files) (sorted idx)) as (sel & Hsel & Hl).
  { intros i Hi. apply (proj1 (sorted_elem _ _)), Hrange in Hi.
    destruct (py_index_in_range files i Hi) as (x & Hx & _). by exists x. }
  exists idx, sel. rewrite Hsel. repeat split; try done.
  - intros x Hx.
    destruct (py_index_in_range files _ (Hrange _ Hmid)) as (y & Hy & Hy').
    rewrite Hx in Hy'. injection Hy' as <-.
    eapply rmap_elem; [done| |done]. by apply sorted_elem.
  - rewrite Hl sorted_length. lia.
  - rewrite Hl sorted_length. lia.
Qed.

(** With [num_slices = 1] and more than one slice, the stride
    [total // (num_slices - 1)] divides by zero. *)
Lemma extract_key_slices_one {A} (files : list A) :
  (2 ≤ length files)%nat →
  extract_key_slices 1 files = Raise ZeroDivisionError.
Proof.
  intros HL. unfold extract_key_slices.
  destruct (decide (Z.of_nat (length files) ≤ 1)); [lia|]. done.
Qed.

Lemma extract_key_slices_small {A} N (files : list A) :
  Z.of_nat (length files) ≤ N → extract_key_slices N files = Ok files.
Proof.
  intros HL. unfold extract_key_slices.
  by destruct (decide (Z.of_nat (length files) ≤ N)).
Qed.




(** C5: a series no longer than [N] is returned unchanged, and for
    [2 ≤ N < L] the index [L // 2] is selected and its slice returned;
    but for [N = 1 < L] the code raises [ZeroDivisionError] instead of
    selecting the midpoint. *)
Theorem selector_midpoint {A} (N : Z) (files : list A) :
  let L := Z.of_nat (length files) in
  (L ≤ N → extract_key_slices N files = Ok files)
  ∧ (2 ≤ N → N < L →
     ∃ idx sel, key_indices N L = Ok idx
                ∧ extract_key_slices N files = Ok sel
                ∧ L `div` 2 ∈ idx
                ∧ ∀ x, files !! Z.to_nat (L `div` 2) = Some x → x ∈ sel)
  ∧ (N = 1 → 1 < L → extract_key_slices N files = Raise ZeroDivisionError).
Proof.
  intros L. split; [apply extract_key_slices_small|split].
  - intros HN HL.
    destruct (extract_key_slices_large N files HN HL) as (idx & sel & ? & ? & ? & ? & _).
    by exists idx, sel.
  - intros -> HL. apply extract_key_slices_one. lia.
Qed.

(** C5 at the failing input: one slice asked of a series of three. *)
Lemma selector_midpoint_fault :
  extract_key_slices 1 ["s0"; "s1"; "s2"] = Raise ZeroDivisionError.
Proof. apply (proj2 (proj2 (selector_midpoint 1 ["s0"; "s1"; "s2"]))); [done|simpl; lia]. Defined.

(** C9: with [N = 1] a series of two or more slices is not reduced to its
    midpoint slice: the stride computation divides by [N - 1 = 0] and the
    call ends in [ZeroDivisionError]. *)
Theorem selector_single_slice_fault {A} (files : list A) :
  (2 ≤ length files)%nat →
  extract_key_slices 1 files = Raise ZeroDivisionError
  ∧ key_indices 1 (Z.of_nat (length files)) = Raise ZeroDivisionError.
Proof.
  intros HL. split; [by apply extract_key_slices_one|done].
Qed.

Lemma selector_single_slice_fault_witness :
  extract_key_slices 1 [10; 20; 30] = Raise ZeroDivisionError
  ∧ key_indices 1 (Z.of_nat (length [10; 20; 30])) = Raise ZeroDivisionError.
Proof. apply (selector_single_slice_fault [10; 20; 30]). simpl; lia. Defined.

End selector.

(** ** Single-precision comparisons *)

Section float32_order.
Import Float32.












End float32_order.

(** ** Single-precision arithmetic *)

Section float32_arith.
Import Float32.

















End float32_arith.

(** ** Single-precision subtraction of distinct numbers *)

Section float32_positive.
Import Float32.










End float32_positive.

(** ** The pixel normaliser *)

Section normaliser.
Import Float32 DicomProcessor.








End normaliser.

(** ** The Girder database *)

Section database.
Import GirderPlugin.

Lemma lookup_item_save st it :
  lookup_item (save st it) (i_id it) = Some it.
Proof.
  unfold lookup_item, save; simpl.
  induction (items st) as [|x l IH]; simpl.
  - by rewrite bool_decide_eq_true_2.
  - destruct (decide (i_id x = i_id it)) as [Heq|Hne]; simpl.
    + by rewrite bool_decide_eq_true_2.
    + by rewrite bool_decide_eq_false_2.
Qed.

Lemma setMetadata_id st it md : i_id (setMetadata st it md).2 = i_id it.
Proof. done. Qed.

Lemma setMetadata_lookup_item st it md :
  lookup_item (setMetadata st it md).1 (i_id it) = Some (setMetadata st it md).2.
Proof. unfold setMetadata; simpl. apply (lookup_item_save st (Item _ _ _ _)). Qed.

Lemma setMetadata_meta st it md k :
  i_meta (setMetadata st it md).2 !! k = update_key (md !! k) (i_meta it !! k).
Proof.
  unfold setMetadata; simpl. rewrite lookup_merge.
  by destruct (md !! k), (i_meta it !! k).
Qed.

(** Writing one key leaves every other key as it was. *)
Lemma setMetadata_singleton st it key v k :
  i_meta (setMetadata st it {[key := v]}).2 !! k
  = if decide (k = key) then (if decide (v = VNone) then None else Some v)
    else i_meta it !! k.
Proof.
  rewrite setMetadata_meta. destruct (decide (k = key)) as [->|Hne].
  - rewrite lookup_singleton_eq /=. destruct v; by case_decide.
  - by rewrite lookup_singleton_ne.
Qed.

Lemma setMetadata_child_files st it md :
  child_files (setMetadata st it md).1 = child_files st.
Proof. done. Qed.

End database.

(** ** The job orchestrator *)

Section orchestrator.
Import AirflowClient GirderPlugin.

(** C1, as stated, fails on the code: an item whose status is [running]
    but which holds no ZIP file is answered with an error, not with the
    in-progress result. *)
Lemma trigger_zip_running_without_zip :
  get (i_meta (Sample.study Sample.running_meta)) "analysis_status" = VStr "running"
  ∧ resp (trigger_zip_pipeline (Sample.resource Sample.engine_down) (Sample.ctx "u1")
            (Sample.database Sample.running_meta []) (Sample.study Sample.running_meta)
            None None)
    = Error "No ZIP file found in item".
Proof. split; by vm_compute. Qed.

(** C1, amended: for an item whose persisted status is [queued] or
    [running], the ZIP submit sends nothing to the engine and leaves the
    database as it was; when the item holds a ZIP file and the request
    carries a token, the answer is the in-progress result with the
    persisted job id; without a ZIP file, or without a token, the answer
    is the error of the guard that runs first. *)
Theorem trigger_zip_in_progress self c st it folder_id item_name :
  get (i_meta it) "analysis_status" = VStr "queued"
  ∨ get (i_meta it) "analysis_status" = VStr "running" →
  let r := trigger_zip_pipeline self c st it folder_id item_name in
  sent r = [] ∧ db r = st
  ∧ (is_Some (_latest_zip_file st it) → truthy (_token_value c) = true →
     resp r = InProgress (get (i_meta it) "airflow_job_id")
                (get_or (i_meta it) "airflow_dag_id" (VStr (zip_dag_id self))))
  ∧ (_latest_zip_file st it = None → resp r = Error "No ZIP file found in item")
  ∧ (is_Some (_latest_zip_file st it) → truthy (_token_value c) = false →
     resp r = Error "No Girder API token in current request context").
Proof.
  intros Hst r. subst r. unfold trigger_zip_pipeline.
  destruct (_latest_zip_file st it) as [zip|].
  - destruct (truthy (_token_value c)); simpl.
    + by rewrite bool_decide_eq_true_2.
    + by repeat split.
  - repeat split; by intros [? ?].
Qed.

Lemma trigger_zip_in_progress_witness :
  let r := trigger_zip_pipeline (Sample.resource (Sample.engine_up ∅ [])) (Sample.ctx "u1")
             (Sample.database Sample.running_meta [Sample.scan_zip])
             (Sample.study Sample.running_meta) None None in
  sent r = [] ∧ db r = Sample.database Sample.running_meta [Sample.scan_zip]
  ∧ resp r = InProgress (VStr "manual__girder_j1") (VStr "girder_zip_pipeline").
Proof.
  intros r.
  destruct (trigger_zip_in_progress (Sample.resource (Sample.engine_up ∅ []))
              (Sample.ctx "u1") (Sample.database Sample.running_meta [Sample.scan_zip])
              (Sample.study Sample.running_meta) None None)
    as (Hsent & Hdb & Hresp & _).
  - right. vm_compute. reflexivity.
  - split; [exact Hsent|]. split; [exact Hdb|].
    apply Hresp; [by eexists|]. vm_compute. reflexivity.
Defined.

(** What the ZIP submit does once it reaches the trigger call. *)
Lemma trigger_zip_sent self c st it folder_id item_name url body :
  sent (trigger_zip_pipeline self c st it folder_id item_name) = [Post url body] →
  ∃ conf,
    trigger_zip_pipeline self c st it folder_id item_name
    = match (trigger_dag (airflow_client self) (utcnow c 0) (zip_dag_id self) conf
               (Some ("manual__girder_" +:+ uuid4 c))).2 with
      | Ok dag_run =>
          Reply (ZipStarted (zip_dag_id self) (get dag_run "dag_run_id") (i_id it)
                   (str_or folder_id (i_folderId it))
                   (from_option f_id "" (_latest_zip_file st it))
                   (from_option f_name "" (_latest_zip_file st it))
                   (str_or item_name
                      (_default_output_item_name self c
                         (from_option f_name "" (_latest_zip_file st it)))))
                (_set_trigger_metadata c (utcnow c 1) st it (zip_dag_id self) dag_run)
                [Post url body]
      | Raise e =>
          Reply (Error ("Failed to trigger ZIP pipeline: " +:+ exn_str e)) st
                [Post url body]
      end
    ∧ (trigger_dag (airflow_client self) (utcnow c 0) (zip_dag_id self) conf
         (Some ("manual__girder_" +:+ uuid4 c))).1 = Post url body.
Proof.
  unfold trigger_zip_pipeline.
  destruct (_latest_zip_file st it) as [zip|]; [|done].
  destruct (truthy (_token_value c)); simpl; [|done].
  case_bool_decide; [done|].
  destruct (_ || _); [done|].
  intros Hsent.
  exists (zip_dag_conf c (uuid4 c) zip (_token_value c) (i_id it)
            (str_or folder_id (i_folderId it))
            (str_or item_name (_default_output_item_name self c (f_name zip)))).
  simpl in *.
  destruct (reraise _ _) as [dag_run|e]; simpl in *; by injection Hsent as <- <-.
Qed.

(** C4: when the trigger request the ZIP submit sent is not answered with
    a run record, nothing is persisted, and the answer is an error result
    carrying the reason. *)
Theorem trigger_zip_failure_persists_nothing self c st it folder_id item_name url body :
  sent (trigger_zip_pipeline self c st it folder_id item_name) = [Post url body] →
  (∀ run, on_post (remote (airflow_client self)) url body ≠ Body run) →
  db (trigger_zip_pipeline self c st it folder_id item_name) = st
  ∧ ∃ e, reraise ("Failed to trigger DAG " +:+ zip_dag_id self)
           (on_post (remote (airflow_client self)) url body) = Raise e
         ∧ resp (trigger_zip_pipeline self c st it folder_id item_name)
           = Error ("Failed to trigger ZIP pipeline: " +:+ exn_str e).
Proof.
  intros Hsent Hfail.
  destruct (trigger_zip_sent _ _ _ _ _ _ _ _ Hsent) as (conf & -> & Hrq).
  unfold trigger_dag in *. simpl in *. injection Hrq as <- <-.
  destruct (on_post _ _ _) as [run|msg|e] eqn:Hpost; simpl.
  - by destruct (Hfail run).
  - split; [done|]. by eexists.
  - split; [done|]. by eexists.
Qed.

Lemma trigger_zip_failure_persists_nothing_witness :
  db (trigger_zip_pipeline (Sample.resource Sample.engine_down) (Sample.ctx "u1")
        (Sample.database ∅ [Sample.scan_zip]) (Sample.study ∅) None None)
  = Sample.database ∅ [Sample.scan_zip]
  ∧ resp (trigger_zip_pipeline (Sample.resource Sample.engine_down) (Sample.ctx "u1")
            (Sample.database ∅ [Sample.scan_zip]) (Sample.study ∅) None None)
    = Error "Failed to trigger ZIP pipeline: Failed to trigger DAG girder_zip_pipeline: Connection refused".
Proof.
  pose proof (trigger_zip_failure_persists_nothing
    (Sample.resource Sample.engine_down) (Sample.ctx "u1")
    (Sample.database ∅ [Sample.scan_zip]) (Sample.study ∅) None None
    _ _ eq_refl) as [Hdb (e & He & Hresp)]; [done|].
  split; [exact Hdb|]. rewrite Hresp. vm_compute in He. by injection He as <-.
Defined.

(** The file scan of [analyze_item] keeps what it has found. *)
Lemma scan_files_found (files : list file) f :
  f ∈ files →
  endswith (f_name f) ".zip" = true ∨ endswith (f_name f) ".dcm" = true →
  ¬ ((scan_files files).1 = None ∧ (scan_files files).2 = []).
Proof.
  unfold scan_files.
  set (step := λ '(zip_file, dicom_files) g, _).
  assert (Hkeep : ∀ l acc, ¬ (acc.1 = None ∧ acc.2 = []) →
            ¬ ((foldl step acc l).1 = None ∧ (foldl step acc l).2 = [])).
  { induction l as [|g l IH]; intros [z d] Hacc; [done|]. simpl.
    apply IH. unfold step.
    destruct (endswith (f_name g) ".zip"); simpl; [by intros [? _]|].
    destruct (endswith (f_name g) ".dcm"); simpl; [|done].
    intros [_ Hd]. by destruct d. }
  generalize (@None file, @nil file).
  induction files as [|g l IH]; intros acc Hf Hname.
  - by apply elem_of_nil in Hf.
  - simpl. apply elem_of_cons in Hf as [<-|Hf]; [|by apply IH].
    apply Hkeep. destruct acc as [z d]. unfold step.
    destruct Hname as [-> | Hdcm]; simpl; [by intros [? _]|].
    destruct (endswith (f_name f) ".zip"); simpl; [by intros [? _]|].
    rewrite Hdcm /=. intros [_ Hd]. by destruct d.
Qed.

(** One call of [analyze_item] on an item holding a [.zip] or [.dcm]
    file, with a Hugging Face token at hand: exactly one trigger request,
    for a run named after the job id minted in the call. *)
Lemma analyze_item_sent self c st it hf_token f :
  f ∈ childFiles st it →
  endswith (f_name f) ".zip" = true ∨ endswith (f_name f) ".dcm" = true →
  truthy (py_or hf_token (getenv_opt c "HUGGINGFACE_TOKEN")) = true →
  ∃ body,
    sent (analyze_item self c st it hf_token)
    = [Post (dag_runs_url (airflow_client self) (analysis_dag_id self)) body]
    ∧ p_dag_run_id body = Some ("manual__analysis_" +:+ uuid4 c)
    ∧ p_conf body !! "job_id" = Some (VStr (uuid4 c)).
Proof.
  intros Hf Hname Htok. unfold analyze_item.
  pose proof (scan_files_found _ _ Hf Hname) as Hscan.
  destruct (scan_files (childFiles st it)) as [zip_file dicom_files]; simpl in Hscan.
  rewrite bool_decide_eq_false_2 // Htok /=.
  eexists. split; [by destruct (reraise _ _)|]. split; [done|].
  unfold analysis_dag_conf. destruct zip_file; simpl.
  - rewrite lookup_insert_ne // lookup_insert_ne //.
  - done.
Qed.

Lemma analyze_item_child_files self c st it hf_token :
  child_files (db (analyze_item self c st it hf_token)) = child_files st.
Proof.
  unfold analyze_item. destruct (scan_files _) as [z d].
  case_bool_decide; [done|]. destruct (negb _); [done|].
  simpl. by destruct (reraise _ _).
Qed.

(** C10: [analyze_item] checks nothing of the item's persisted state.
    On an item holding a [.zip] or [.dcm] file, with a Hugging Face token
    at hand, a call sends one trigger request for a run named after the
    job id minted in that call; and a second call, on the item as the
    first one left it (whatever its metadata now says), sends one more,
    for a run of its own. *)
Theorem analyze_item_never_deduplicates self c1 c2 st it hf_token f :
  f ∈ childFiles st it →
  endswith (f_name f) ".zip" = true ∨ endswith (f_name f) ".dcm" = true →
  truthy (py_or hf_token (getenv_opt c1 "HUGGINGFACE_TOKEN")) = true →
  truthy (py_or hf_token (getenv_opt c2 "HUGGINGFACE_TOKEN")) = true →
  let url := dag_runs_url (airflow_client self) (analysis_dag_id self) in
  let r1 := analyze_item self c1 st it hf_token in
  ∀ it', i_id it' = i_id it →
  let r2 := analyze_item self c2 (db r1) it' hf_token in
  ∃ body1 body2,
    sent r1 = [Post url body1] ∧ sent r2 = [Post url body2]
    ∧ p_dag_run_id body1 = Some ("manual__analysis_" +:+ uuid4 c1)
    ∧ p_conf body1 !! "job_id" = Some (VStr (uuid4 c1))
    ∧ p_dag_run_id body2 = Some ("manual__analysis_" +:+ uuid4 c2)
    ∧ p_conf body2 !! "job_id" = Some (VStr (uuid4 c2)).
Proof.
  intros Hf Hname Ht1 Ht2 url r1 it' Hid r2.
  destruct (analyze_item_sent self c1 st it hf_token f Hf Hname Ht1)
    as (b1 & Hs1 & Hr1 & Hj1).
  destruct (analyze_item_sent self c2 (db r1) it' hf_token f)
    as (b2 & Hs2 & Hr2 & Hj2); [|done|done|].
  { unfold childFiles. subst r1. by rewrite analyze_item_child_files Hid. }
  by exists b1, b2.
Qed.

Lemma analyze_item_never_deduplicates_witness :
  let self := Sample.resource (Sample.engine_up {["state" := VStr "queued"]} []) in
  let st := Sample.database Sample.running_meta [Sample.slice_dcm] in
  let url := dag_runs_url (airflow_client self) (analysis_dag_id self) in
  let r1 := analyze_item self (Sample.ctx "u1") st (Sample.study Sample.running_meta) VNone in
  let r2 := analyze_item self (Sample.ctx "u2") (db r1) (Sample.study Sample.running_meta) VNone in
  ∃ body1 body2,
    sent r1 = [Post url body1] ∧ sent r2 = [Post url body2]
    ∧ p_dag_run_id body1 = Some ("manual__analysis_" +:+ uuid4 (Sample.ctx "u1"))
    ∧ p_conf body1 !! "job_id" = Some (VStr (uuid4 (Sample.ctx "u1")))
    ∧ p_dag_run_id body2 = Some ("manual__analysis_" +:+ uuid4 (Sample.ctx "u2"))
    ∧ p_conf body2 !! "job_id" = Some (VStr (uuid4 (Sample.ctx "u2"))).
Proof.
  intros self st url r1 r2.
  apply (analyze_item_never_deduplicates self (Sample.ctx "u1") (Sample.ctx "u2") st
           (Sample.study Sample.running_meta) VNone Sample.slice_dcm).
  - simpl. left.
  - right. vm_compute. reflexivity.
  - vm_compute. reflexivity.
  - vm_compute. reflexivity.
  - reflexivity.
Defined.

End orchestrator.

(** ** The status reconciler *)

Section reconciler.
Import AirflowClient GirderPlugin Reconciler.

Lemma get_item_pipeline_status_ok self st it run :
  truthy (get (i_meta it) "airflow_dag_id") = true →
  truthy (get (i_meta it) "airflow_job_id") = true →
  item_query self it = Ok run →
  db (get_item_pipeline_status self st it)
  = (setMetadata st it {["analysis_status" := fetched_state run]}).1
  ∧ resp (get_item_pipeline_status self st it)
    = ItemStatus (i_id it) (get (i_meta it) "airflow_job_id")
        (get (i_meta it) "airflow_dag_id") (fetched_state run)
        (get run "start_date") (get run "end_date").
Proof.
  unfold item_query, get_item_pipeline_status, get_dag_run_status.
  intros -> ->. simpl. by intros ->.
Qed.

Lemma get_item_pipeline_status_raise self st it e :
  truthy (get (i_meta it) "airflow_dag_id") = true →
  truthy (get (i_meta it) "airflow_job_id") = true →
  item_query self it = Raise e →
  db (get_item_pipeline_status self st it) = st
  ∧ resp (get_item_pipeline_status self st it)
    = ItemStatusStale (i_id it) (get (i_meta it) "airflow_job_id")
        (get (i_meta it) "airflow_dag_id")
        (get_or (i_meta it) "analysis_status" (VStr "unknown"))
        ("Status refresh failed: " +:+ exn_str e).
Proof.
  unfold item_query, get_item_pipeline_status, get_dag_run_status.
  intros -> ->. simpl. by intros ->.
Qed.

Lemma get_zip_job_status_ok self st job_id run src :
  zip_query self job_id = Ok run →
  zip_source_item st job_id = Some src →
  db (get_zip_job_status self st job_id)
  = (setMetadata st src (status_update (fetched_state run))).1.
Proof.
  unfold zip_query, zip_source_item, get_zip_job_status, get_dag_run_status.
  simpl. by intros -> ->.
Qed.

Lemma get_zip_job_status_raise self st job_id e :
  zip_query self job_id = Raise e →
  db (get_zip_job_status self st job_id) = st.
Proof.
  unfold zip_query, get_zip_job_status, get_dag_run_status.
  simpl. by intros ->.
Qed.

(** C7: on a successful status query [get_item_pipeline_status] stores
    the fetched state under [analysis_status] and leaves every other
    metadata key as it was; that includes [processed_dicom_ready], which
    it does not set when the fetched state is [success] (as
    [get_zip_job_status] does). *)
Theorem item_status_overwrites_state_only self st it run :
  truthy (get (i_meta it) "airflow_dag_id") = true →
  truthy (get (i_meta it) "airflow_job_id") = true →
  item_query self it = Ok run →
  ∃ it',
    lookup_item (db (get_item_pipeline_status self st it)) (i_id it) = Some it'
    ∧ i_meta it' !! "analysis_status"
      = (if decide (fetched_state run = VNone) then None else Some (fetched_state run))
    ∧ (∀ k, k ≠ "analysis_status" → i_meta it' !! k = i_meta it !! k)
    ∧ (fetched_state run = VStr "success" →
       i_meta it' !! "processed_dicom_ready" = i_meta it !! "processed_dicom_ready").
Proof.
  intros Hdag Hrun Hq.
  destruct (get_item_pipeline_status_ok self st it run Hdag Hrun Hq) as [-> _].
  eexists. split; [apply setMetadata_lookup_item|].
  split; [|split].
  - rewrite setMetadata_singleton.
    by destruct (decide ("analysis_status" = "analysis_status")).
  - intros k Hk. rewrite setMetadata_singleton.
    by destruct (decide (k = "analysis_status")).
  - intros _. rewrite setMetadata_singleton.
    by destruct (decide ("processed_dicom_ready" = "analysis_status")).
Qed.

Lemma item_status_success_without_ready_flag :
  let self := Sample.resource (Sample.engine_up {["state" := VStr "success"]} []) in
  let st := Sample.database Sample.running_meta [Sample.scan_zip] in
  let it := Sample.study Sample.running_meta in
  ∃ it',
    lookup_item (db (get_item_pipeline_status self st it)) "item1" = Some it'
    ∧ i_meta it' !! "analysis_status" = Some (VStr "success")
    ∧ i_meta it' !! "processed_dicom_ready" = None.
Proof.
  intros self st it.
  destruct (item_status_overwrites_state_only self st it {["state" := VStr "success"]})
    as (it' & Hit' & Hstate & _ & Hready); [by vm_compute..|].
  exists it'. split; [exact Hit'|]. split; [exact Hstate|].
  rewrite Hready; by vm_compute.
Defined.

Lemma status_update_state v : status_update v !! "analysis_status" = Some v.
Proof.
  unfold status_update. case_decide.
  - rewrite lookup_insert_ne //.
  - apply lookup_singleton_eq.
Qed.

(** The sibling endpoint does set the flag on success. *)
Lemma zip_status_success_sets_ready_flag self st job_id run src :
  zip_query self job_id = Ok run →
  zip_source_item st job_id = Some src →
  fetched_state run = VStr "success" →
  ∃ src',
    lookup_item (db (get_zip_job_status self st job_id)) (i_id src) = Some src'
    ∧ i_meta src' !! "analysis_status" = Some (VStr "success")
    ∧ i_meta src' !! "processed_dicom_ready" = Some (VBool true).
Proof.
  intros Hq Hsrc Hstate. rewrite (get_zip_job_status_ok self st job_id run src) //.
  eexists. split; [apply setMetadata_lookup_item|].
  rewrite !setMetadata_meta Hstate. unfold status_update.
  destruct (decide (VStr "success" = VStr "success")); [|done].
  by rewrite lookup_insert_ne // lookup_singleton_eq lookup_insert_eq.
Qed.

(** C8, as stated, fails on the code: the item is [running], the engine
    answers the status query with a record that has no [state] field, and
    the reconciler stores [unknown] over [running]. *)
Lemma item_status_unknown_over_running :
  let self := Sample.resource (Sample.engine_up {["dag_run_id" := VStr "manual__girder_j1"]} []) in
  let st := Sample.database Sample.running_meta [Sample.scan_zip] in
  let it := Sample.study Sample.running_meta in
  i_meta it !! "analysis_status" = Some (VStr "running")
  ∧ ∃ it',
      lookup_item (db (get_item_pipeline_status self st it)) "item1" = Some it'
      ∧ i_meta it' !! "analysis_status" = Some (VStr "unknown").
Proof. split; [by vm_compute|]. eexists. split; by vm_compute. Qed.

(** C8, amended: a status query that fails writes nothing, so the
    persisted state stays and is the one reported; a status query that
    succeeds overwrites [analysis_status] with the fetched state whatever
    the persisted value was, and the fetched state is [unknown] when the
    run record has no [state] field.  Both endpoints behave this way. *)
Theorem reconcile_writes_fetched_state self st it :
  truthy (get (i_meta it) "airflow_dag_id") = true →
  truthy (get (i_meta it) "airflow_job_id") = true →
  (∀ e, item_query self it = Raise e →
     db (get_item_pipeline_status self st it) = st
     ∧ ∃ note, resp (get_item_pipeline_status self st it)
               = ItemStatusStale (i_id it) (get (i_meta it) "airflow_job_id")
                   (get (i_meta it) "airflow_dag_id")
                   (get_or (i_meta it) "analysis_status" (VStr "unknown")) note)
  ∧ (∀ run, item_query self it = Ok run →
     ∃ it',
       lookup_item (db (get_item_pipeline_status self st it)) (i_id it) = Some it'
       ∧ i_meta it' !! "analysis_status"
         = match run !! "state" with
           | None => Some (VStr "unknown")
           | Some VNone => None
           | Some v => Some v
           end)
  ∧ (∀ job_id e, zip_query self job_id = Raise e →
     db (get_zip_job_status self st job_id) = st)
  ∧ (∀ job_id run src,
       zip_query self job_id = Ok run → zip_source_item st job_id = Some src →
       ∃ src',
         lookup_item (db (get_zip_job_status self st job_id)) (i_id src) = Some src'
         ∧ i_meta src' !! "analysis_status"
           = match run !! "state" with
             | None => Some (VStr "unknown")
             | Some VNone => None
             | Some v => Some v
             end).
Proof.
  intros Hdag Hrun. repeat split.
  - by destruct (get_item_pipeline_status_raise self st it e Hdag Hrun H) as [-> _].
  - destruct (get_item_pipeline_status_raise self st it e Hdag Hrun H) as [_ ->].
    by eexists.
  - intros run Hq.
    destruct (get_item_pipeline_status_ok self st it run Hdag Hrun Hq) as [-> _].
    eexists. split; [apply setMetadata_lookup_item|].
    rewrite setMetadata_singleton.
    destruct (decide ("analysis_status" = "analysis_status")); [|done].
    unfold fetched_state, get_or. by destruct (run !! "state") as [[]|].
  - intros job_id e. apply get_zip_job_status_raise.
  - intros job_id run src Hq Hsrc.
    rewrite (get_zip_job_status_ok self st job_id run src) //.
    eexists. split; [apply setMetadata_lookup_item|].
    rewrite setMetadata_meta status_update_state.
    unfold fetched_state, get_or. by destruct (run !! "state") as [[]|].
Qed.

Lemma reconcile_writes_fetched_state_witness :
  let self := Sample.resource Sample.engine_down in
  let st := Sample.database Sample.running_meta [Sample.scan_zip] in
  let it := Sample.study Sample.running_meta in
  db (get_item_pipeline_status self st it) = st
  ∧ ∃ note, resp (get_item_pipeline_status self st it)
            = ItemStatusStale "item1" (VStr "manual__girder_j1")
                (VStr "girder_zip_pipeline") (VStr "running") note.
Proof.
  intros self st it.
  destruct (reconcile_writes_fetched_state self st it) as (Hfail & _);
    [by vm_compute..|].
  by apply (Hfail (RuntimeError
    "Failed to get DAG run status for manual__girder_j1: Connection refused")).
Defined.

End reconciler.

(** ** Progress of a run *)

Section progress.
Import AirflowClient GirderPlugin Progress.








End progress.
